(** * BinaryEthPredMarket: the market DSL parser and the contract generator

    A shallow embedding of [dsl/parser.py] (the Lark grammar, the
    [MarketTransformer] callbacks, [parse_market]) and of
    [market_generator.py] ([generate_contract]), with the properties of the
    specification stated and settled over them.

    Python strings are modelled as [string] (code points below 256), Python
    integers as [Z], dictionaries with string keys as [gmap string _], and
    raised exceptions as the [Raise] branch of [Py.result]. Integers are
    unbounded, and their conversion from and to decimal text is that of the
    language: the optional limit an interpreter may put on the number of
    digits is not modelled. *)

From Stdlib Require Import ZArith Ascii.
From stdpp Require Import gmap strings list pretty.

Local Open Scope Z_scope.
Set Warnings "-clear-no-such-hyp".

(** ** Python values, exceptions and results *)

Module Py.

(** The terminals of the market grammar, which its syntax errors name;
    [T_END] is the end of the input. *)
Inductive terminal :=
| T_MARKET | T_STRING | T_LBRACE | T_OUTCOMES | T_YES | T_COMMA | T_NO
| T_SEMICOLON | T_ORACLE | T_ADDRESS | T_FEE | T_NUMBER | T_PERCENT
| T_TRADING_MECHANISM | T_POOL | T_RBRACE | T_END.

(** The exceptions the modelled code can raise. [UnexpectedInput] is the
    common base class of Lark's [UnexpectedCharacters] and [UnexpectedToken];
    it carries the line, the column and the terminals that were acceptable. *)
Inductive exn :=
| KeyError (key : string)
| ValueError
| IndexError
| AttributeError
| TypeError
| FileNotFoundError (path : string)
| UnexpectedInput (line column : nat) (expected : list terminal).

Inductive result (A : Type) :=
| Ok (a : A)
| Raise (e : exn).
Global Arguments Ok {A} a.
Global Arguments Raise {A} e.

Global Instance result_ret : MRet result := fun A a => Ok a.
Global Instance result_bind : MBind result := fun A B f r =>
  match r with
  | Ok a => f a
  | Raise e => Raise e
  end.

(** The values that occur in a market dictionary: [None], booleans,
    integers, strings and lists. *)
#[local] Unset Elimination Schemes.
Inductive value :=
| PyNone
| PyBool (b : bool)
| PyInt (n : Z)
| PyStr (s : string)
| PyList (l : list value).
#[local] Set Elimination Schemes.

Definition dq : string := String "034"%char EmptyString.
Definition nl : string := String "010"%char EmptyString.

(** [d[k]] on a dictionary with string keys. *)
Definition getitem {A} (d : gmap string A) (k : string) : result A :=
  match d !! k with
  | Some v => Ok v
  | None => Raise (KeyError k)
  end.

(** [items[i]] on a list. *)
Definition index {A} (l : list A) (i : nat) : result A :=
  match l !! i with
  | Some v => Ok v
  | None => Raise IndexError
  end.

(** *** String methods *)

Fixpoint lstrip_with (p : ascii -> bool) (s : string) : string :=
  match s with
  | EmptyString => EmptyString
  | String c r => if p c then lstrip_with p r else s
  end.

Fixpoint rstrip_with (p : ascii -> bool) (s : string) : string :=
  match s with
  | EmptyString => EmptyString
  | String c r =>
      match rstrip_with p r with
      | EmptyString => if p c then EmptyString else String c EmptyString
      | r' => String c r'
      end
  end.

Definition is_char (x c : ascii) : bool := bool_decide (c = x).

(** [s.rstrip(x)] and [s.strip(x)] for a one-character [x]. *)
Definition rstrip (s : string) (x : ascii) : string := rstrip_with (is_char x) s.
Definition strip (s : string) (x : ascii) : string :=
  rstrip_with (is_char x) (lstrip_with (is_char x) s).

(** [s.endswith(x)] for a one-character [x]. *)
Fixpoint endswith (s : string) (x : ascii) : bool :=
  match s with
  | EmptyString => false
  | String c EmptyString => is_char x c
  | String _ r => endswith r x
  end.

(** [s.startswith(p)] and [p in s]. *)
Fixpoint startswith (s p : string) : bool :=
  match p, s with
  | EmptyString, _ => true
  | String c p', String d s' => bool_decide (c = d) && startswith s' p'
  | String _ _, EmptyString => false
  end.

Fixpoint contains (s p : string) : bool :=
  startswith s p ||
  match s with
  | EmptyString => false
  | String _ r => contains r p
  end.

(** *** [int(s)] on a string

    Base 10: optional surrounding whitespace, an optional sign, then decimal
    digits, single underscores allowed between digits. Anything else raises
    [ValueError]. Below code point 256 the characters [str.isspace] accepts
    are 9-13, 28-32, 133 and 160, and the only decimal digits are 0-9. *)

Definition is_space (c : ascii) : bool :=
  let n := nat_of_ascii c in
  ((9 <=? n) && (n <=? 13) || (28 <=? n) && (n <=? 32)
   || (n =? 133) || (n =? 160))%nat.

Definition digit_value (c : ascii) : option Z :=
  let n := nat_of_ascii c in
  if ((48 <=? n) && (n <=? 57))%nat then Some (Z.of_nat n - 48) else None.

Definition is_digit (c : ascii) : bool :=
  match digit_value c with Some _ => true | None => false end.

Fixpoint all_chars (p : ascii -> bool) (s : string) : bool :=
  match s with
  | EmptyString => true
  | String c r => p c && all_chars p r
  end.

(** The digits after the first one; [after_us] records that the previous
    character was an underscore. *)
Fixpoint int_digits (s : string) (acc : Z) (after_us : bool) : option Z :=
  match s with
  | EmptyString => if after_us then None else Some acc
  | String c r =>
      match digit_value c with
      | Some d => int_digits r (10 * acc + d) false
      | None =>
          if is_char "_"%char c then
            if after_us then None else int_digits r acc true
          else if after_us then None
          else if all_chars is_space s then Some acc
          else None
      end
  end.

Definition int_unsigned (s : string) : option Z :=
  match s with
  | String c r =>
      match digit_value c with
      | Some d => int_digits r d false
      | None => None
      end
  | EmptyString => None
  end.

Definition int_of_string (s : string) : option Z :=
  match lstrip_with is_space s with
  | String "+"%char r => int_unsigned r
  | String "-"%char r => Z.opp <$> int_unsigned r
  | r => int_unsigned r
  end.

Definition int (s : string) : result Z :=
  match int_of_string s with
  | Some n => Ok n
  | None => Raise ValueError
  end.

(** *** [repr] and [str]

    [repr] of a string picks the quote (double only when the string has a
    single quote and no double quote), and escapes the backslash, the chosen
    quote, tab, newline, carriage return and the code points that are not
    printable (below 32, 127-160 and 173), the latter as [\xNN]. A string
    literal of this file has no escapes: a backslash in it is a backslash. *)

Fixpoint contains_char (x : ascii) (s : string) : bool :=
  match s with
  | EmptyString => false
  | String c r => is_char x c || contains_char x r
  end.

Definition hex_digit (n : nat) : ascii :=
  if (n <? 10)%nat then ascii_of_nat (48 + n) else ascii_of_nat (87 + n).

Definition hex_escape (c : ascii) : string :=
  let n := nat_of_ascii c in
  String "\"%char (String "x"%char (String (hex_digit (n / 16)) (String (hex_digit (n mod 16)) EmptyString))).

Definition is_printable (c : ascii) : bool :=
  let n := nat_of_ascii c in
  ((32 <=? n) && (n <? 127) || (161 <=? n) && negb (n =? 173))%nat.

Definition repr_char (quote c : ascii) : string :=
  if is_char quote c || is_char "\"%char c then String "\"%char (String c EmptyString)
  else if is_char "009"%char c then "\t"
  else if is_char "010"%char c then "\n"
  else if is_char "013"%char c then "\r"
  else if is_printable c then String c EmptyString
  else hex_escape c.

Fixpoint repr_chars (quote : ascii) (s : string) : string :=
  match s with
  | EmptyString => EmptyString
  | String c r => repr_char quote c +:+ repr_chars quote r
  end.

Definition repr_str (s : string) : string :=
  let quote : ascii :=
    if contains_char "'"%char s && negb (contains_char "034"%char s)
    then "034"%char else "'"%char in
  String quote (repr_chars quote s +:+ String quote EmptyString).

(** [sep.join(l)]. *)
Fixpoint join (sep : string) (l : list string) : string :=
  match l with
  | [] => EmptyString
  | [x] => x
  | x :: r => x +:+ sep +:+ join sep r
  end.

Fixpoint repr (v : value) : string :=
  match v with
  | PyNone => "None"
  | PyBool b => if b then "True" else "False"
  | PyInt n => pretty n
  | PyStr s => repr_str s
  | PyList l => "[" +:+ join ", " (map repr l) +:+ "]"
  end.

(** [str(v)], which is also what an f-string field without a format
    specification inserts. *)
Definition str (v : value) : string :=
  match v with
  | PyStr s => s
  | _ => repr v
  end.

End Py.

(** ** [market_generator.py] *)

Module Generator.
Import Py.

(** Lines 21-66 of the template, up to the opening quote of the mechanism literal. *)
Definition contract_head_lines : list string :=
  [ "// SPDX-License-Identifier: MIT";
    "pragma solidity ^0.8.20;";
    EmptyString;
    "/// @title Binary Market Contract";
    "/// @notice A contract for creating and managing binary prediction markets";
    "/// @dev Uses a pool-based mechanism for trading";
    "contract BinaryMarket {";
    "    // Market state";
    "    string public question;";
    "    address public oracle;";
    "    uint256 public fee;  // in basis points (1% = 100)";
    "    string public mechanism;";
    "    ";
    "    // Outcomes";
    "    enum Outcome { Yes, No }";
    "    mapping(Outcome => uint256) public outcomeAmounts;";
    "    ";
    "    // User positions";
    "    mapping(address => mapping(Outcome => uint256)) public userPositions;";
    "    ";
    "    // Market status";
    "    bool public isResolved;";
    "    Outcome public winningOutcome;";
    "    ";
    "    // Events";
    "    event MarketCreated(string question, address oracle, uint256 fee);";
    "    event PositionOpened(address user, Outcome outcome, uint256 amount);";
    "    event MarketResolved(Outcome winningOutcome);";
    "    event WinningsClaimed(address user, uint256 amount);";
    "    ";
    "    /// @notice Creates a new binary prediction market";
    "    /// @param _question The question for the prediction market";
    "    /// @param _oracle The address that can resolve the market";
    "    /// @param _fee The fee in basis points (1% = 100)";
    "    constructor(";
    "        string memory _question,";
    "        address _oracle,";
    "        uint256 _fee";
    "    ) {";
    "        require(_oracle != address(0), " +:+ dq +:+ "Invalid oracle address" +:+ dq +:+ ");";
    "        require(_fee <= 1000, " +:+ dq +:+ "Fee too high" +:+ dq +:+ "); // Max 10%";
    "        ";
    "        question = _question;";
    "        oracle = _oracle;";
    "        fee = _fee;";
    "        mechanism = " +:+ dq ].

(** Lines 66-128 of the template, from the closing quote of the mechanism literal. *)
Definition contract_tail_lines : list string :=
  [ dq +:+ ";";
    "        ";
    "        emit MarketCreated(_question, _oracle, _fee);";
    "    }";
    "    ";
    "    /// @notice Opens a position in the market";
    "    /// @param outcome The outcome to bet on (Yes or No)";
    "    /// @dev Requires sending ETH with the transaction";
    "    function openPosition(Outcome outcome) external payable {";
    "        require(!isResolved, " +:+ dq +:+ "Market is resolved" +:+ dq +:+ ");";
    "        require(msg.value > 0, " +:+ dq +:+ "Must bet some ETH" +:+ dq +:+ ");";
    "        ";
    "        // Update user position";
    "        userPositions[msg.sender][outcome] += msg.value;";
    "        ";
    "        // Update outcome amounts";
    "        outcomeAmounts[outcome] += msg.value;";
    "        ";
    "        emit PositionOpened(msg.sender, outcome, msg.value);";
    "    }";
    "    ";
    "    /// @notice Resolves the market with the winning outcome";
    "    /// @param _winningOutcome The winning outcome (Yes or No)";
    "    /// @dev Only callable by the oracle";
    "    function resolveMarket(Outcome _winningOutcome) external {";
    "        require(msg.sender == oracle, " +:+ dq +:+ "Only oracle can resolve" +:+ dq +:+ ");";
    "        require(!isResolved, " +:+ dq +:+ "Market already resolved" +:+ dq +:+ ");";
    "        ";
    "        isResolved = true;";
    "        winningOutcome = _winningOutcome;";
    "        ";
    "        emit MarketResolved(_winningOutcome);";
    "    }";
    "    ";
    "    /// @notice Claims winnings for the caller";
    "    /// @dev Calculates proportional share of the winning pool";
    "    /// @return amount The amount of ETH claimed";
    "    function claimWinnings() external returns (uint256 amount) {";
    "        require(isResolved, " +:+ dq +:+ "Market not resolved" +:+ dq +:+ ");";
    "        ";
    "        uint256 userAmount = userPositions[msg.sender][winningOutcome];";
    "        require(userAmount > 0, " +:+ dq +:+ "No winning position" +:+ dq +:+ ");";
    "        ";
    "        // Calculate winnings with optimized math to avoid precision loss";
    "        uint256 winningPool = outcomeAmounts[winningOutcome];";
    "        ";
    "        // Calculate fee amount first";
    "        uint256 feeAmount = (winningPool * fee) / 10000;";
    "        uint256 netWinningPool = winningPool - feeAmount;";
    "        ";
    "        // Calculate user's share using multiplication before division";
    "        amount = (userAmount * netWinningPool) / outcomeAmounts[winningOutcome];";
    "        ";
    "        // Clear user position";
    "        userPositions[msg.sender][winningOutcome] = 0;";
    "        ";
    "        // Transfer winnings";
    "        (bool success, ) = msg.sender.call{value: amount}(" +:+ dq +:+ dq +:+ ");";
    "        require(success, " +:+ dq +:+ "Transfer failed" +:+ dq +:+ ");";
    "        ";
    "        emit WinningsClaimed(msg.sender, amount);";
    "    }";
    "}" ].

Definition contract_head : string := join nl contract_head_lines.
Definition contract_tail : string := join nl contract_tail_lines.

(** Lines 16-18: the local [fee] after the conversion step. *)
Definition convert_fee (fee : value) : result value :=
  match fee with
  | PyStr s =>
      if endswith s "%"%char then
        n ← int (rstrip s "%"%char); Ok (PyInt (n * 100))
      else Ok fee
  | _ => Ok fee
  end.

Definition fee_local (market : gmap string value) : result value :=
  fee ← getitem market "fee"; convert_fee fee.

(** [generate_contract(market)]: the f-string of lines 21-128, whose only
    replacement field is [market['mechanism']] on line 66. *)
Definition generate_contract (market : gmap string value) : result string :=
  _ ← fee_local market;
  mechanism ← getitem market "mechanism";
  Ok (contract_head +:+ str mechanism +:+ contract_tail).

(** The dictionary of the module's [__main__] block. *)
Definition example_market : gmap string value :=
  {[ "question" := PyStr "Will ETH reach $5000 in 2024?";
     "oracle" := PyStr "0x1234567890123456789012345678901234567890";
     "fee" := PyInt 100;
     "outcomes" := PyList [PyStr "Yes"; PyStr "No"];
     "mechanism" := PyStr "pool" ]}.

End Generator.

(** ** [dsl/parser.py] *)

(** *** The transformer callbacks

    A callback receives the results of the children of its rule, anonymous
    literal tokens filtered out. The terminal rules pass a token (a string)
    on, the field rules return one-entry dictionaries, [fields] merges them
    and [market] receives a token followed by a dictionary. *)

Module MarketTransformer.
Import Py.

Inductive item :=
| Token (s : string)
| Dict (d : gmap string value).

Definition start (items : list (gmap string value)) : result (gmap string value) :=
  index items 0.

(** [x.strip(...)] needs a string, [x[key]] a dictionary. *)
Definition as_token (x : item) : result string :=
  match x with Token s => Ok s | Dict _ => Raise AttributeError end.
Definition as_dict (x : item) : result (gmap string value) :=
  match x with Dict d => Ok d | Token _ => Raise TypeError end.

Definition market (items : list item) : result (gmap string value) :=
  question ← index items 0 ≫= as_token;
  outcomes ← (index items 1 ≫= as_dict) ≫= (λ d, getitem d "outcomes");
  oracle ← (index items 1 ≫= as_dict) ≫= (λ d, getitem d "oracle");
  fee ← (index items 1 ≫= as_dict) ≫= (λ d, getitem d "fee");
  mechanism ← (index items 1 ≫= as_dict) ≫= (λ d, getitem d "mechanism");
  Ok ({[ "question" := PyStr (strip question "034"%char);
         "outcomes" := outcomes;
         "oracle" := oracle;
         "fee" := fee;
         "mechanism" := mechanism ]} : gmap string value).

(** A later item overrides an earlier one on a shared key. *)
Definition fields (items : list (gmap string value)) : result (gmap string value) :=
  Ok (foldl (λ acc item, item ∪ acc) ∅ items).

Definition outcomes {A} (_ : list A) : result (gmap string value) :=
  Ok {[ "outcomes" := PyList [PyStr "Yes"; PyStr "No"] ]}.

Definition oracle (items : list string) : result (gmap string value) :=
  x ← index items 0; Ok {[ "oracle" := PyStr x ]}.

Definition fee (items : list string) : result (gmap string value) :=
  x ← index items 0; n ← int x; Ok {[ "fee" := PyInt n ]}.

Definition trading_mechanism {A} (_ : list A) : result (gmap string value) :=
  Ok {[ "mechanism" := PyStr "pool" ]}.

Definition string_ (items : list string) : result string := index items 0.
Definition address (items : list string) : result string := index items 0.
Definition number (items : list string) : result string := index items 0.

End MarketTransformer.

(** *** The grammar and the LALR run

    [parse_market] reads its grammar from the file [market_grammar.lark],
    which is not among the sources. The terminals, their patterns and the
    productions below are those of section 4.1 of the specification; the
    [grammar] string of the module names the same terminals and rules, with
    the [fields] production spread over four lines. *)

Module Lark.
Import Py.

(** [common.WS]: one or more of space, tab, form feed, carriage return,
    newline. *)
Definition is_ws (c : ascii) : bool :=
  let n := nat_of_ascii c in
  ((n =? 32) || (n =? 9) || (n =? 12) || (n =? 13) || (n =? 10))%nat.

Definition is_hex (c : ascii) : bool :=
  let n := nat_of_ascii c in
  ((48 <=? n) && (n <=? 57) || (97 <=? n) && (n <=? 102)
   || (65 <=? n) && (n <=? 70))%nat.

Definition is_quote (c : ascii) : bool := is_char "034"%char c.

(** Modelled from the spec: the content of [market_grammar.lark] is missing;
    these are the texts of the literal terminals of section 4.1. *)
Definition literal (t : terminal) : option string :=
  match t with
  | T_MARKET => Some "market"
  | T_LBRACE => Some "{"
  | T_OUTCOMES => Some "outcomes:"
  | T_YES => Some "Yes"
  | T_COMMA => Some ","
  | T_NO => Some "No"
  | T_SEMICOLON => Some ";"
  | T_ORACLE => Some "oracle:"
  | T_FEE => Some "fee:"
  | T_PERCENT => Some "%"
  | T_TRADING_MECHANISM => Some "trading_mechanism:"
  | T_POOL => Some "pool"
  | T_RBRACE => Some "}"
  | T_STRING | T_ADDRESS | T_NUMBER | T_END => None
  end.

Inductive rule :=
| r_start | r_market | r_fields | r_outcomes | r_oracle | r_fee
| r_trading_mechanism | r_string | r_address | r_number.

Inductive symbol :=
| Tm (t : terminal)
| Nt (r : rule).

(** Modelled from the spec: the content of [market_grammar.lark] is missing;
    these are the productions of section 4.1, [fields] with its four fields
    in the fixed order. *)
Definition production (r : rule) : list symbol :=
  match r with
  | r_start => [Nt r_market]
  | r_market => [Tm T_MARKET; Nt r_string; Tm T_LBRACE; Nt r_fields; Tm T_RBRACE]
  | r_fields => [Nt r_outcomes; Nt r_oracle; Nt r_fee; Nt r_trading_mechanism]
  | r_outcomes => [Tm T_OUTCOMES; Tm T_YES; Tm T_COMMA; Tm T_NO; Tm T_SEMICOLON]
  | r_oracle => [Tm T_ORACLE; Nt r_address; Tm T_SEMICOLON]
  | r_fee => [Tm T_FEE; Nt r_number; Tm T_PERCENT; Tm T_SEMICOLON]
  | r_trading_mechanism => [Tm T_TRADING_MECHANISM; Tm T_POOL; Tm T_SEMICOLON]
  | r_string => [Tm T_STRING]
  | r_address => [Tm T_ADDRESS]
  | r_number => [Tm T_NUMBER]
  end.

(** *** Matching one terminal at the head of the input *)

Fixpoint drop_prefix (p s : string) : option string :=
  match p with
  | EmptyString => Some s
  | String c p' =>
      match s with
      | String d s' => if bool_decide (c = d) then drop_prefix p' s' else None
      | EmptyString => None
      end
  end.

(** The longest prefix whose characters satisfy [p], and the rest. *)
Fixpoint span (p : ascii -> bool) (s : string) : string * string :=
  match s with
  | String c r =>
      if p c then let '(a, b) := span p r in (String c a, b)
      else (EmptyString, s)
  | EmptyString => (EmptyString, EmptyString)
  end.

(** Exactly [n] characters satisfying [p]. *)
Fixpoint take_exact (p : ascii -> bool) (n : nat) (s : string) : option (string * string) :=
  match n with
  | O => Some (EmptyString, s)
  | S n' =>
      match s with
      | String c r =>
          if p c then
            match take_exact p n' r with
            | Some (a, b) => Some (String c a, b)
            | None => None
            end
          else None
      | EmptyString => None
      end
  end.

(** Modelled from the spec: the content of [market_grammar.lark] is missing;
    the patterns are those of section 4.1.
    The token text and the remaining input when terminal [t] matches at the
    head of [s]:
    STRING is a quote, characters other than a quote, a quote;
    ADDRESS is 0x and exactly 40 hexadecimal digits;
    NUMBER is one or more decimal digits. *)
Definition match_terminal (t : terminal) (s : string) : option (string * string) :=
  match t with
  | T_STRING =>
      match s with
      | String c r =>
          if is_quote c then
            let '(body, r') := span (λ c, negb (is_quote c)) r in
            match r' with
            | String c' r'' => Some (String c (body +:+ String c' EmptyString), r'')
            | EmptyString => None
            end
          else None
      | EmptyString => None
      end
  | T_ADDRESS =>
      match drop_prefix "0x" s with
      | Some r =>
          match take_exact is_hex 40 r with
          | Some (h, r') => Some ("0x" +:+ h, r')
          | None => None
          end
      | None => None
      end
  | T_NUMBER =>
      match span is_digit s with
      | (EmptyString, _) => None
      | (d, r) => Some (d, r)
      end
  | T_END => None
  | _ =>
      match literal t with
      | Some l =>
          match drop_prefix l s with
          | Some r => Some (l, r)
          | None => None
          end
      | None => None
      end
  end.

(** *** The contextual lexer *)

(** Line and column, both counted from 1. *)
Definition position : Type := nat * nat.

Fixpoint advance (p : position) (s : string) : position :=
  match s with
  | EmptyString => p
  | String c r =>
      advance (if is_char "010"%char c then (S p.1, 1%nat) else (p.1, S p.2)) r
  end.

Record lexer_state := LexerState {
  rest : string;
  pos : position;
  last_token : option position
}.

Definition initial (text : string) : lexer_state :=
  {| rest := text; pos := (1%nat, 1%nat); last_token := None |}.

(** The next token when the parser state accepts the single terminal [t]:
    ignored whitespace is skipped; at the end of the input the parser is fed
    the end marker, placed at the last token (line 1, column 1 when there
    was none); elsewhere [t] must match. *)
Definition next_token (t : terminal) (st : lexer_state) : result (string * lexer_state) :=
  let '(w, r) := span is_ws (rest st) in
  let p := advance (pos st) w in
  match r with
  | EmptyString =>
      match t with
      | T_END => Ok (EmptyString, {| rest := r; pos := p; last_token := last_token st |})
      | _ =>
          let e := default (1%nat, 1%nat) (last_token st) in
          Raise (UnexpectedInput e.1 e.2 [t])
      end
  | _ =>
      match match_terminal t r with
      | Some (tok, r') =>
          Ok (tok, {| rest := r'; pos := advance p tok; last_token := Some p |})
      | None => Raise (UnexpectedInput p.1 p.2 [t])
      end
  end.

(** *** The LALR(1) run with the transformer applied at each reduction

    The grammar has one production per rule and no recursion, so every parser
    state accepts exactly one terminal. A rule is reduced, and its callback
    called, once the token that follows it has been read. *)
Definition parse (text : string) : result (gmap string value) :=
  let st := initial text in
  '(_, st) ← next_token T_MARKET st;
  '(tok, st) ← next_token T_STRING st;
  '(_, st) ← next_token T_LBRACE st;
  question ← MarketTransformer.string_ [tok];
  '(_, st) ← next_token T_OUTCOMES st;
  '(_, st) ← next_token T_YES st;
  '(_, st) ← next_token T_COMMA st;
  '(_, st) ← next_token T_NO st;
  '(_, st) ← next_token T_SEMICOLON st;
  '(_, st) ← next_token T_ORACLE st;
  outcomes ← MarketTransformer.outcomes (@nil string);
  '(tok, st) ← next_token T_ADDRESS st;
  '(_, st) ← next_token T_SEMICOLON st;
  address ← MarketTransformer.address [tok];
  '(_, st) ← next_token T_FEE st;
  oracle ← MarketTransformer.oracle [address];
  '(tok, st) ← next_token T_NUMBER st;
  '(_, st) ← next_token T_PERCENT st;
  number ← MarketTransformer.number [tok];
  '(_, st) ← next_token T_SEMICOLON st;
  '(_, st) ← next_token T_TRADING_MECHANISM st;
  fee ← MarketTransformer.fee [number];
  '(_, st) ← next_token T_POOL st;
  '(_, st) ← next_token T_SEMICOLON st;
  '(_, st) ← next_token T_RBRACE st;
  trading_mechanism ← MarketTransformer.trading_mechanism (@nil string);
  fields ← MarketTransformer.fields [outcomes; oracle; fee; trading_mechanism];
  '(_, st) ← next_token T_END st;
  market ← MarketTransformer.market
             [MarketTransformer.Token question; MarketTransformer.Dict fields];
  MarketTransformer.start [market].

End Lark.

Module Parser.
Import Py.

(** The module-level [grammar] string (lines 4-25). *)
Definition grammar_lines : list string :=
  [ EmptyString;
    "    start: market";
    "    ";
    "    market: " +:+ dq +:+ "market" +:+ dq +:+ " string " +:+ dq +:+ "{" +:+ dq +:+ " fields " +:+ dq +:+ "}" +:+ dq;
    "    ";
    "    fields: outcomes";
    "          oracle";
    "          fee";
    "          trading_mechanism";
    "    ";
    "    outcomes: " +:+ dq +:+ "outcomes:" +:+ dq +:+ " " +:+ dq +:+ "Yes" +:+ dq +:+ " " +:+ dq +:+ "," +:+ dq +:+ " " +:+ dq +:+ "No" +:+ dq +:+ " " +:+ dq +:+ ";" +:+ dq;
    "    oracle: " +:+ dq +:+ "oracle:" +:+ dq +:+ " address " +:+ dq +:+ ";" +:+ dq;
    "    fee: " +:+ dq +:+ "fee:" +:+ dq +:+ " number " +:+ dq +:+ "%" +:+ dq +:+ " " +:+ dq +:+ ";" +:+ dq;
    "    trading_mechanism: " +:+ dq +:+ "trading_mechanism:" +:+ dq +:+ " " +:+ dq +:+ "pool" +:+ dq +:+ " " +:+ dq +:+ ";" +:+ dq;
    "    ";
    "    string: /" +:+ dq +:+ "[^" +:+ dq +:+ "]*" +:+ dq +:+ "/";
    "    address: /0x[0-9a-fA-F]{40}/";
    "    number: /[0-9]+/";
    "    ";
    "    %import common.WS";
    "    %ignore WS";
    EmptyString ].
Definition grammar : string := join nl grammar_lines.

(** The module-level names a function of the module can read. *)
Record globals := Globals { g_grammar : string }.

Definition module_globals : globals := {| g_grammar := grammar |}.

(** [parse_market(text)]: [Lark.open] opens [market_grammar.lark] in the
    working directory, whose file names are [cwd], and the parser built from
    it is run on [text]. *)
Definition parse_market (g : globals) (cwd : gset string) (text : string)
  : result (gmap string value) :=
  if decide ("market_grammar.lark" ∈ cwd) then Lark.parse text
  else Raise (FileNotFoundError "market_grammar.lark").

(** The source files of the repository. *)
Definition repository_files : gset string :=
  {[ "dsl/parser.py"; "market_generator.py"; "test_parser.py";
     "analyze_calibration.py"; "analysis/multi_run.py";
     "analysis/single_run.py" ]}.

(** The [example] document of the module's [__main__] block (lines 71-78). *)
Definition example_lines : list string :=
  [ EmptyString;
    "    market " +:+ dq +:+ "Will ETH reach $5000 in 2024?" +:+ dq +:+ " {";
    "        outcomes: Yes, No;";
    "        oracle: 0x1234567890123456789012345678901234567890;";
    "        fee: 1%;";
    "        trading_mechanism: pool;";
    "    }";
    "    " ].
Definition example : string := join nl example_lines.

End Parser.

(** ** The notions of the specification *)

Module Spec.
Import Py.

(** The number a string of decimal digits denotes. *)
Fixpoint decimal (s : string) : Z :=
  match s with
  | EmptyString => 0
  | String c r => default 0 (digit_value c) * 10 ^ Z.of_nat (String.length r) + decimal r
  end.

Definition numeral (s : string) : Prop :=
  s ≠ EmptyString ∧ all_chars is_digit s = true.

(** The terminal sequence a list of grammar symbols expands to; [fuel]
    bounds the nesting depth of the rules. *)
Fixpoint expand (fuel : nat) (l : list Lark.symbol) : list terminal :=
  match fuel with
  | O => []
  | S fuel' =>
      flat_map (λ x, match x with
                     | Lark.Tm t => [t]
                     | Lark.Nt r => expand fuel' (Lark.production r)
                     end) l
  end.

(** The one sentence of the grammar of section 4.1. *)
Definition sentence : list terminal := expand 6 [Lark.Nt Lark.r_start].

(** [x] is a text of terminal [t]. *)
Definition lexeme (t : terminal) (x : string) : Prop :=
  match t with
  | T_STRING =>
      ∃ q, all_chars (λ c, negb (Lark.is_quote c)) q = true ∧ x = dq +:+ q +:+ dq
  | T_ADDRESS =>
      ∃ h, String.length h = 40%nat ∧ all_chars Lark.is_hex h = true ∧ x = "0x" +:+ h
  | T_NUMBER => numeral x
  | T_END => False
  | _ => Lark.literal t = Some x
  end.

Definition whitespace (w : string) : Prop := all_chars Lark.is_ws w = true.

(** [doc] is the texts [toks] of the terminals [ts], in order, with optional
    whitespace before each and at the end. *)
Fixpoint tokenizes (ts : list terminal) (toks : list string) (doc : string) : Prop :=
  match ts, toks with
  | [], [] => whitespace doc
  | t :: ts', x :: toks' =>
      ∃ w r, whitespace w ∧ lexeme t x ∧ doc = w +:+ x +:+ r ∧ tokenizes ts' toks' r
  | _, _ => False
  end.

(** The texts of the terminals [ts] as the lexer reads them one after the
    other from [st]. *)
Fixpoint lex_all (ts : list terminal) (st : Lark.lexer_state)
  : result (list string * Lark.lexer_state) :=
  match ts with
  | [] => Ok ([], st)
  | t :: ts' =>
      '(x, st') ← Lark.next_token t st;
      '(xs, st'') ← lex_all ts' st';
      Ok (x :: xs, st'')
  end.

(** [s] is empty or starts with a character that does not satisfy [p]. *)
Definition head_not (p : ascii → bool) (s : string) : Prop :=
  match s with
  | EmptyString => True
  | String c _ => p c = false
  end.

(** No NUMBER is directly followed by a terminal whose text may start with a
    digit. *)
Fixpoint number_delimited (ts : list terminal) : bool :=
  match ts with
  | T_NUMBER :: ((T_NUMBER | T_ADDRESS) :: _) => false
  | _ :: ts' => number_delimited ts'
  | [] => true
  end.

(** The dictionary a market with the given question, oracle address and fee
    is parsed to. *)
Definition market_ast (question address : string) (fee : Z) : gmap string value :=
  {[ "question" := PyStr question;
     "outcomes" := PyList [PyStr "Yes"; PyStr "No"];
     "oracle" := PyStr address;
     "fee" := PyInt fee;
     "mechanism" := PyStr "pool" ]}.

(** The dictionary of a market from the token texts of its sentence: the
    question is the STRING text without its quotes, the oracle the ADDRESS
    text, the fee the number the NUMBER text denotes. *)
Definition assemble (toks : list string) : result (gmap string value) :=
  match toks with
  | [_; q; _; _; _; _; _; _; _; a; _; _; n; _; _; _; _; _; _] =>
      Ok (market_ast (strip q "034"%char) a (decimal n))
  | _ => Raise IndexError
  end.


(** The one-line document with the given question, oracle address and fee
    numeral, laid out as the scenario of section 8. *)
Definition document (question address number : string) : string :=
  "market " +:+ dq +:+ question +:+ dq +:+ " { outcomes: Yes, No; oracle: "
  +:+ address +:+ "; fee: " +:+ number +:+ "%; trading_mechanism: pool; }".

(** The pipeline of section 2: the dictionary of the parser handed to the
    generator. *)
Definition compile (g : Parser.globals) (cwd : gset string) (text : string) : result string :=
  market ← Parser.parse_market g cwd text; Generator.generate_contract market.

(** Whether [s], read as the body of a string literal of the generated
    contract, holds a quote that is not escaped by a backslash, which ends
    the literal. *)
Fixpoint ends_literal_from (escaped : bool) (s : string) : bool :=
  match s with
  | EmptyString => false
  | String c r =>
      if escaped then ends_literal_from false r
      else if is_char "\"%char c then ends_literal_from true r
      else if is_char "034"%char c then true
      else ends_literal_from false r
  end.

Definition ends_literal (s : string) : bool := ends_literal_from false s.

(** The document of the concrete scenario of section 8. *)
Definition scenario : string :=
  "market " +:+ dq +:+ "Will ETH reach $5000 in 2024?" +:+ dq +:+
  " { outcomes: Yes, No; oracle: 0x1234567890123456789012345678901234567890; fee: 1%; trading_mechanism: pool; }".

(** The working directory that holds the grammar file and nothing else. *)
Definition grammar_dir : gset string := {[ "market_grammar.lark" ]}.

Definition example_oracle : string := "0x1234567890123456789012345678901234567890".

Definition example_question : string := "Will ETH reach $5000 in 2024?".

(** The example document with the fee 15%. *)
Definition fee_15_document : string := document example_question example_oracle "15".

(** The contract text for the mechanism pool. *)
Definition pool_contract : string :=
  Generator.contract_head +:+ "pool" +:+ Generator.contract_tail.

(** A mechanism value that closes the string literal it is put in. *)
Definition injected_mechanism : string :=
  "pool" +:+ dq +:+ "; fee = 0; string memory s = " +:+ dq.



End Spec.

(** ** [test_parser.py] *)

Module TestParser.
Import Py.

(** A computation that prints: from the lines printed so far to the lines
    printed after it, with its result or the exception that ended it. *)
Definition io (A : Type) : Type := list string → list string * result A.

Global Instance io_ret : MRet io := λ A a out, (out, Ok a).





End TestParser.

(** ** Further notions for the properties *)

Module Notions.
Import Py.


(** The five keys of a market dictionary. *)
Definition market_keys : gset string :=
  {[ "question"; "outcomes"; "oracle"; "fee"; "mechanism" ]}.

(** The four keys [market] copies from the dictionary of the fields. *)
Definition field_keys : list string := ["outcomes"; "oracle"; "fee"; "mechanism"].


(** The one-entry dictionaries of the four field rules, in the order of the
    grammar. *)
Definition field_items (address : string) (fee : Z) : list (gmap string value) :=
  [ {[ "outcomes" := PyList [PyStr "Yes"; PyStr "No"] ]};
    {[ "oracle" := PyStr address ]};
    {[ "fee" := PyInt fee ]};
    {[ "mechanism" := PyStr "pool" ]} ].

End Notions.

(** * Properties *)

(** ** Strings *)

Section Strings.
Import Py.

Lemma app_cons c (s t : string) : String c s +:+ t = String c (s +:+ t).
Proof. reflexivity. Qed.

Lemma app_nil_l (s : string) : EmptyString +:+ s = s.
Proof. reflexivity. Qed.

Lemma app_nil_r (s : string) : s +:+ EmptyString = s.
Proof. induction s as [|c s IH]; [done|]. by rewrite app_cons, IH. Qed.

Lemma app_assoc (s t u : string) : (s +:+ t) +:+ u = s +:+ t +:+ u.
Proof. induction s as [|c s IH]; [done|]. by rewrite !app_cons, IH. Qed.

Lemma is_char_true x c : is_char x c = true ↔ c = x.
Proof. unfold is_char. by rewrite bool_decide_eq_true. Qed.

Lemma is_digit_value c : is_digit c = true → ∃ d, digit_value c = Some d ∧ 0 ≤ d ≤ 9.
Proof.
  unfold is_digit, digit_value.
  destruct (_ && _)%nat eqn:E; [|done]. intros _.
  apply andb_true_iff in E as [E1 E2].
  apply Nat.leb_le in E1, E2. eexists; split; [done|lia].
Qed.

End Strings.

(** ** [int], [rstrip] and [endswith] on numerals *)

Section Numerals.
Import Py Spec.

Lemma digit_cases c :
  is_digit c = true →
  c ∈ ["0"; "1"; "2"; "3"; "4"; "5"; "6"; "7"; "8"; "9"]%char.
Proof.
  destruct c as [[] [] [] [] [] [] [] []]; vm_compute; intros H;
    try discriminate H; set_solver.
Qed.

Lemma int_digits_numeral r acc :
  all_chars is_digit r = true →
  int_digits r acc false = Some (acc * 10 ^ Z.of_nat (String.length r) + decimal r).
Proof.
  revert acc. induction r as [|c r IH]; intros acc H.
  - simpl. f_equal. lia.
  - simpl in H. apply andb_true_iff in H as [Hc Hr].
    destruct (is_digit_value c Hc) as (d & Hd & _).
    cbn [int_digits decimal String.length]. rewrite Hd, (IH _ Hr). simpl default.
    f_equal. rewrite Nat2Z.inj_succ, Z.pow_succ_r by lia. ring.
Qed.

Lemma int_of_string_numeral d : numeral d → int_of_string d = Some (decimal d).
Proof.
  intros [Hne H]. destruct d as [|c r]; [done|].
  simpl in H. apply andb_true_iff in H as [Hc Hr].
  assert (int_unsigned (String c r) = Some (decimal (String c r))) as Hu.
  { destruct (is_digit_value c Hc) as (d & Hd & _).
    cbn [int_unsigned decimal]. rewrite Hd, (int_digits_numeral _ _ Hr). done. }
  rewrite <- Hu. apply digit_cases in Hc.
  repeat (apply elem_of_cons in Hc as [->|Hc]; [reflexivity|]).
  by apply elem_of_nil in Hc.
Qed.

Lemma int_numeral d : numeral d → int d = Ok (decimal d).
Proof. intros H. unfold int. by rewrite (int_of_string_numeral d H). Qed.

Lemma fee_numeral n :
  numeral n → MarketTransformer.fee [n] = Ok {[ "fee" := PyInt (decimal n) ]}.
Proof. intros H. unfold MarketTransformer.fee. simpl. by rewrite (int_numeral n H). Qed.



End Numerals.

(** ** The contract generator *)

Section GeneratorProperties.
Import Py Generator Spec.




Lemma generate_contract_Ok m out :
  generate_contract m = Ok out ↔
  ∃ f f' mech, m !! "fee" = Some f ∧ convert_fee f = Ok f' ∧
    m !! "mechanism" = Some mech ∧
    out = contract_head +:+ str mech +:+ contract_tail.
Proof.
  unfold generate_contract, fee_local, getitem.
  split.
  - destruct (m !! "fee") as [f|]; simpl; [|done].
    destruct (convert_fee f) as [f'|] eqn:Hc; simpl; [|done].
    destruct (m !! "mechanism") as [mech|]; simpl; [|done].
    intros [= <-]. by exists f, f', mech.
  - intros (f & f' & mech & -> & Hf & -> & ->). simpl. by rewrite Hf.
Qed.

Lemma generate_contract_fee_mechanism m f f' mech :
  m !! "fee" = Some f → convert_fee f = Ok f' → m !! "mechanism" = Some mech →
  generate_contract m = Ok (contract_head +:+ str mech +:+ contract_tail).
Proof.
  intros Hf Hc Hm. apply generate_contract_Ok. by exists f, f', mech.
Qed.





Lemma generate_contract_ext (m m' : gmap string value) :
  m !! "fee" = m' !! "fee" → m !! "mechanism" = m' !! "mechanism" →
  generate_contract m = generate_contract m'.
Proof.
  intros Hf Hm. unfold generate_contract, fee_local, getitem. by rewrite Hf, Hm.
Qed.





(** C8 (counterexample): a mechanism holding a quote is put into the contract
    text as it is, and its quote ends the string literal around it. *)
Lemma mechanism_inserted_unescaped :
  generate_contract {[ "fee" := PyInt 100; "mechanism" := PyStr injected_mechanism ]}
  = Ok (contract_head +:+ injected_mechanism +:+ contract_tail) ∧
  ends_literal injected_mechanism = true.
Proof. split; vm_compute; reflexivity. Qed.

(** C8 (amended): the mechanism string is inserted verbatim, with no
    escaping, between the fixed head and tail of the template; the question
    is not interpolated at all: setting or removing it leaves the result
    unchanged. *)
Theorem generate_contract_verbatim
    (m : gmap string value) (s : string) (f : Z) (q : value) :
  generate_contract (<["mechanism" := PyStr s]> (<["fee" := PyInt f]> m))
  = Ok (contract_head +:+ s +:+ contract_tail) ∧
  generate_contract (<["question" := q]> m) = generate_contract m ∧
  generate_contract (delete "question" m) = generate_contract m.
Proof.
  split_and!.
  - apply (generate_contract_fee_mechanism _ (PyInt f) (PyInt f) (PyStr s)).
    + by rewrite lookup_insert_ne, lookup_insert_eq.
    + done.
    + by rewrite lookup_insert_eq.
  - apply generate_contract_ext; by rewrite lookup_insert_ne.
  - apply generate_contract_ext; by rewrite lookup_delete_ne.
Qed.



End GeneratorProperties.

(** ** The lexer *)

Section LexerProperties.
Import Py Lark Spec.

Lemma span_spec p s a b :
  span p s = (a, b) → s = a +:+ b ∧ all_chars p a = true ∧ head_not p b.
Proof.
  revert a b. induction s as [|c s IH]; intros a b; simpl.
  - intros [= <- <-]. done.
  - destruct (p c) eqn:Hc.
    + destruct (span p s) as [a' b'] eqn:E. intros [= <- <-].
      destruct (IH _ _ eq_refl) as (-> & Ha & Hb).
      rewrite app_cons. simpl. by rewrite Hc, Ha.
    + intros [= <- <-]. done.
Qed.

Lemma span_app p a b :
  all_chars p a = true → head_not p b → span p (a +:+ b) = (a, b).
Proof.
  intros Ha Hb. induction a as [|c a IH].
  - rewrite app_nil_l. destruct b as [|c b]; [done|]. simpl in *. by rewrite Hb.
  - simpl in Ha. apply andb_true_iff in Ha as [Hc Ha].
    rewrite app_cons. simpl. by rewrite Hc, (IH Ha).
Qed.

Lemma drop_prefix_spec l s r : drop_prefix l s = Some r ↔ s = l +:+ r.
Proof.
  revert s. induction l as [|c l IH]; intros s; simpl.
  - rewrite app_nil_l. split; congruence.
  - rewrite app_cons. destruct s as [|d s]; [done|].
    case_bool_decide as E.
    + subst d. rewrite IH. split; congruence.
    + split; congruence.
Qed.

Lemma take_exact_spec p n s a b :
  take_exact p n s = Some (a, b) ↔
  s = a +:+ b ∧ String.length a = n ∧ all_chars p a = true.
Proof.
  revert s a b. induction n as [|n IH]; intros s a b; simpl.
  - split.
    + by intros [= <- <-].
    + intros (-> & Hl & _). by destruct a.
  - split.
    + destruct s as [|c s]; [done|].
      destruct (p c) eqn:Hc; [|done].
      destruct (take_exact p n s) as [[a' b']|] eqn:E; [|done].
      intros [= <- <-]. apply IH in E as (-> & Hl & Ha).
      rewrite app_cons. simpl. by rewrite Hc, Ha, Hl.
    + intros (-> & Hl & Ha). destruct a as [|c a]; [done|].
      rewrite app_cons. simpl in Hl, Ha.
      apply andb_true_iff in Ha as [Hc Ha]. rewrite Hc.
      assert (take_exact p n (a +:+ b) = Some (a, b)) as ->; [|done].
      apply IH. split_and!; [done|lia|done].
Qed.

#[local] Arguments drop_prefix : simpl never.
#[local] Arguments take_exact : simpl never.
#[local] Arguments span : simpl never.

Lemma is_quote_true c : is_quote c = true ↔ c = "034"%char.
Proof. apply is_char_true. Qed.

Lemma match_terminal_sound t s x r :
  match_terminal t s = Some (x, r) → lexeme t x ∧ s = x +:+ r.
Proof.
  destruct t; simpl; try done;
    try (destruct (drop_prefix _ s) as [r0|] eqn:E; [|done];
         intros [= <- <-]; by apply drop_prefix_spec in E).
  - (* STRING *)
    destruct s as [|c s]; [done|].
    destruct (is_quote c) eqn:Hc; [|done]. apply is_quote_true in Hc as ->.
    destruct (span _ s) as [body r'] eqn:E.
    apply span_spec in E as (-> & Hbody & Hr').
    destruct r' as [|c' r'']; [done|]. intros [= <- <-].
    simpl in Hr'. apply negb_false_iff, is_quote_true in Hr' as ->.
    split.
    + by exists body.
    + rewrite !app_cons. f_equal. by rewrite app_assoc.
  - (* ADDRESS *)
    destruct (drop_prefix _ s) as [r0|] eqn:E; [|done].
    apply drop_prefix_spec in E as ->.
    destruct (take_exact _ _ r0) as [[h r']|] eqn:E; [|done].
    apply take_exact_spec in E as (-> & Hl & Hh). intros [= <- <-].
    split.
    + by exists h.
    + by rewrite app_assoc.
  - (* NUMBER *)
    destruct (span _ s) as [d r'] eqn:E.
    apply span_spec in E as (-> & Hd & _).
    destruct d as [|c d]; [done|]. intros [= <- <-]. by split.
Qed.

Lemma match_terminal_complete t x r :
  lexeme t x → (t = T_NUMBER → head_not is_digit r) →
  match_terminal t (x +:+ r) = Some (x, r).
Proof.
  destruct t; simpl; try done;
    try (intros [= <-] _;
         by rewrite (proj2 (drop_prefix_spec _ _ r) eq_refl)).
  - (* STRING *)
    intros (q & Hq & ->) _. unfold dq. rewrite !app_cons, !app_nil_l.
    assert (is_quote "034"%char = true) as -> by done.
    rewrite app_assoc, app_cons, app_nil_l.
    by rewrite span_app.
  - (* ADDRESS *)
    intros (h & Hl & Hh & ->) _.
    assert (drop_prefix "0x" (("0x" +:+ h) +:+ r) = Some (h +:+ r)) as ->.
    { apply drop_prefix_spec. by rewrite app_assoc. }
    assert (take_exact is_hex 40 (h +:+ r) = Some (h, r)) as ->; [|done].
    by apply take_exact_spec.
  - (* NUMBER *)
    intros [Hne Hd] Hr. rewrite span_app; [|done|by apply Hr].
    by destruct x.
Qed.

Lemma ws_not_digit c : is_ws c = true → is_digit c = false.
Proof. destruct c as [[] [] [] [] [] [] [] []]; vm_compute; congruence. Qed.

Lemma digit_not_ws c : is_digit c = true → is_ws c = false.
Proof. destruct c as [[] [] [] [] [] [] [] []]; vm_compute; congruence. Qed.

Lemma whitespace_head_not_digit w r :
  whitespace w → head_not is_digit r → head_not is_digit (w +:+ r).
Proof.
  intros Hw Hr. destruct w as [|c w]; [done|].
  simpl in Hw. apply andb_true_iff in Hw as [Hc _].
  rewrite app_cons. simpl. by apply ws_not_digit.
Qed.

(** A text of a terminal starts with a character that is not whitespace,
    and not a digit either unless the terminal is NUMBER or ADDRESS. *)
Lemma lexeme_head t x :
  lexeme t x →
  ∃ c x', x = String c x' ∧ is_ws c = false ∧
    (t ≠ T_NUMBER → t ≠ T_ADDRESS → is_digit c = false).
Proof.
  destruct t; simpl; try done;
    try (intros [= <-]; eexists _, _; by split_and!).
  - intros (q & _ & ->). eexists _, _. by split_and!.
  - intros (h & _ & _ & ->). eexists _, _. by split_and!.
  - intros [Hne Hd]. destruct x as [|c x]; [done|].
    simpl in Hd. apply andb_true_iff in Hd as [Hc _].
    exists c, x. split_and!; [done|by apply digit_not_ws|done].
Qed.

Lemma next_token_sound t st x st' :
  t ≠ T_END → next_token t st = Ok (x, st') →
  ∃ w, whitespace w ∧ lexeme t x ∧ rest st = w +:+ x +:+ rest st'.
Proof.
  intros Ht. unfold next_token.
  destruct (span is_ws (rest st)) as [w r] eqn:E.
  apply span_spec in E as (Hrest & Hw & _).
  destruct r as [|c r]; [by destruct t|].
  destruct (match_terminal t (String c r)) as [[tok r']|] eqn:E; [|done].
  intros [= <- <-]. apply match_terminal_sound in E as [Hx Hr].
  exists w. simpl. by rewrite <- Hr.
Qed.

Lemma next_token_end_sound st x st' :
  next_token T_END st = Ok (x, st') → whitespace (rest st).
Proof.
  unfold next_token.
  destruct (span is_ws (rest st)) as [w r] eqn:E.
  apply span_spec in E as (Hrest & Hw & _).
  destruct r as [|c r]; [|done]. intros _.
  unfold whitespace. by rewrite Hrest, app_nil_r.
Qed.

Lemma next_token_complete t w x r st :
  whitespace w → lexeme t x → (t = T_NUMBER → head_not is_digit r) →
  rest st = w +:+ x +:+ r →
  ∃ st', next_token t st = Ok (x, st') ∧ rest st' = r.
Proof.
  intros Hw Hx Hr Hrest. unfold next_token. rewrite Hrest.
  destruct (lexeme_head t x Hx) as (c & x' & Hc & Hws & _).
  rewrite span_app; [|done|by rewrite Hc].
  rewrite (match_terminal_complete t x r Hx Hr).
  destruct (x +:+ r) eqn:E; [by rewrite Hc in E|]. by eexists.
Qed.

Lemma next_token_end_complete st :
  whitespace (rest st) → ∃ st', next_token T_END st = Ok (EmptyString, st').
Proof.
  intros Hw. unfold next_token.
  rewrite <- (app_nil_r (rest st)). rewrite span_app by done. by eexists.
Qed.


Lemma tokenizes_head ts toks doc :
  tokenizes ts toks doc →
  match ts with
  | (T_NUMBER | T_ADDRESS) :: _ => True
  | _ => head_not is_digit doc
  end.
Proof.
  destruct ts as [|t ts], toks as [|x toks]; simpl; try done.
  - intros Hw. rewrite <- (app_nil_r doc). by apply whitespace_head_not_digit.
  - intros (w & r & Hw & Hx & -> & _).
    destruct (lexeme_head t x Hx) as (c & x' & -> & _ & Hd).
    destruct t; try done; apply whitespace_head_not_digit; try done;
      rewrite app_cons; simpl; by apply Hd.
Qed.

Lemma lex_all_sound ts : ∀ st toks st',
  T_END ∉ ts → lex_all ts st = Ok (toks, st') → whitespace (rest st') →
  tokenizes ts toks (rest st).
Proof.
  induction ts as [|t ts IH]; intros st toks st' Hend; simpl.
  - by intros [= <- <-].
  - apply not_elem_of_cons in Hend as [Ht Hend].
    destruct (next_token t st) as [[x st1]|] eqn:E1; simpl; [|done].
    destruct (lex_all ts st1) as [[xs st2]|] eqn:E2; simpl; [|done].
    intros [= <- <-] Hw.
    destruct (next_token_sound t st x st1 (not_eq_sym Ht) E1) as (w & Hw' & Hx & Hr).
    exists w, (rest st1). split_and!; [done..|]. by eapply IH.
Qed.

Lemma lex_all_complete ts : ∀ st toks,
  number_delimited ts = true → tokenizes ts toks (rest st) →
  ∃ st', lex_all ts st = Ok (toks, st') ∧ whitespace (rest st').
Proof.
  induction ts as [|t ts IH]; intros st toks Hnd; simpl.
  - destruct toks; [|done]. intros Hw. by exists st.
  - destruct toks as [|x toks]; [done|].
    intros (w & r & Hw & Hx & Hrest & Htoks).
    destruct (next_token_complete t w x r st Hw Hx) as (st1 & -> & Hst1); [|done|].
    { intros ->. apply tokenizes_head in Htoks.
      destruct ts as [|[] ts]; done. }
    simpl. subst r.
    destruct (IH st1 toks) as (st2 & -> & Hw2); [|done|].
    { destruct t; try done. by destruct ts as [|[] ts]. }
    simpl. by exists st2.
Qed.

End LexerProperties.

(** ** The parser *)

Section ParserProperties.
Import Py Lark Spec.

Lemma sentence_eq :
  sentence =
  [T_MARKET; T_STRING; T_LBRACE; T_OUTCOMES; T_YES; T_COMMA; T_NO; T_SEMICOLON;
   T_ORACLE; T_ADDRESS; T_SEMICOLON; T_FEE; T_NUMBER; T_PERCENT; T_SEMICOLON;
   T_TRADING_MECHANISM; T_POOL; T_SEMICOLON; T_RBRACE].
Proof. reflexivity. Qed.

Ltac lex_step :=
  match goal with
  | |- context [next_token ?t ?st] =>
      let E := fresh "E" in
      destruct (next_token t st) as [[? ?]|?] eqn:E; simpl; [|reflexivity]
  end.

Lemma market_of_fields q a f :
  MarketTransformer.market
    [MarketTransformer.Token q;
     MarketTransformer.Dict
       ({[ "mechanism" := PyStr "pool" ]} ∪
        ({[ "fee" := PyInt f ]} ∪
         ({[ "oracle" := PyStr a ]} ∪
          ({[ "outcomes" := PyList [PyStr "Yes"; PyStr "No"] ]} ∪ ∅))))]
  = Ok (market_ast (strip q "034"%char) a f).
Proof.
  unfold MarketTransformer.market, getitem. simpl.
  by simplify_map_eq.
Qed.

Lemma parse_unfold text :
  Lark.parse text =
  ('(toks, st) ← lex_all sentence (initial text);
   '(_, _) ← next_token T_END st;
   assemble toks).
Proof.
  rewrite sentence_eq. unfold Lark.parse. simpl.
  do 13 lex_step.
  match goal with
  | E : next_token T_NUMBER _ = Ok (?n, _) |- _ =>
      destruct (next_token_sound T_NUMBER _ _ _ ltac:(done) E) as (? & _ & Hn & _);
      rewrite (fee_numeral n Hn)
  end.
  do 3 lex_step. simpl. do 4 lex_step.
  by rewrite market_of_fields.
Qed.

Lemma tokenizes_length ts : ∀ toks doc,
  tokenizes ts toks doc → length toks = length ts.
Proof.
  induction ts as [|t ts IH]; intros [|x toks] doc; simpl; try done.
  intros (w & r & _ & _ & _ & H). f_equal. by eapply IH.
Qed.

Lemma assemble_Ok toks :
  length toks = length sentence →
  ∃ q a n, toks !! 1%nat = Some q ∧ toks !! 9%nat = Some a ∧
    toks !! 12%nat = Some n ∧
    assemble toks = Ok (market_ast (strip q "034"%char) a (decimal n)).
Proof.
  rewrite sentence_eq. intros H.
  do 19 (destruct toks as [|? toks]; [done|]).
  destruct toks; [|done]. simpl. by eexists _, _, _.
Qed.


(** The parser accepts exactly the documents that tokenize into the sentence
    of the grammar, and returns the dictionary assembled from the tokens. *)
Lemma parse_Ok text ast :
  Lark.parse text = Ok ast ↔
  ∃ toks, tokenizes sentence toks text ∧ assemble toks = Ok ast.
Proof.
  rewrite parse_unfold. split.
  - destruct (lex_all sentence (initial text)) as [[toks st]|] eqn:E; simpl; [|done].
    destruct (next_token T_END st) as [[x st']|] eqn:E'; simpl; [|done].
    intros Ha. exists toks. split; [|done].
    apply next_token_end_sound in E'.
    apply (lex_all_sound sentence (initial text) toks st); [|done..].
    rewrite sentence_eq. set_solver.
  - intros (toks & Ht & Ha).
    destruct (lex_all_complete sentence (initial text) toks) as (st & -> & Hw);
      [done..|]. simpl.
    destruct (next_token_end_complete st Hw) as (st' & ->). done.
Qed.



Lemma parse_market_present g cwd text :
  "market_grammar.lark" ∈ cwd → Parser.parse_market g cwd text = Lark.parse text.
Proof. intros H. unfold Parser.parse_market. by rewrite decide_True. Qed.

Lemma parse_market_absent g cwd text :
  "market_grammar.lark" ∉ cwd →
  Parser.parse_market g cwd text = Raise (FileNotFoundError "market_grammar.lark").
Proof. intros H. unfold Parser.parse_market. by rewrite decide_False. Qed.

Lemma market_ast_dom q a f :
  dom (market_ast q a f)
  = ({[ "question"; "outcomes"; "oracle"; "fee"; "mechanism" ]} : gset string).
Proof. unfold market_ast. rewrite !dom_insert_L, dom_singleton_L. set_solver. Qed.

Lemma rstrip_with_app_char p q c :
  p c = true → all_chars (λ c, negb (p c)) q = true →
  rstrip_with p (q +:+ String c EmptyString) = q.
Proof.
  intros Hc. induction q as [|c0 q IH]; intros Hq.
  - simpl. by rewrite Hc.
  - simpl in Hq. apply andb_true_iff in Hq as [Hc0 Hq].
    rewrite app_cons. cbn [rstrip_with]. rewrite (IH Hq).
    destruct q; [|done]. by apply negb_true_iff in Hc0 as ->.
Qed.

Lemma strip_quotes q :
  all_chars (λ c, negb (is_quote c)) q = true →
  strip (dq +:+ q +:+ dq) "034"%char = q.
Proof.
  intros Hq. unfold strip, dq. rewrite app_cons, app_nil_l. simpl.
  destruct q as [|c q]; [done|].
  pose proof Hq as Hq'. simpl in Hq'. apply andb_true_iff in Hq' as [Hc _].
  apply negb_true_iff in Hc. rewrite app_cons. simpl.
  unfold is_quote in Hc. rewrite Hc. rewrite <- app_cons.
  by apply rstrip_with_app_char.
Qed.





End ParserProperties.

(** ** The parser and the pipeline: the properties of the specification *)

Section PipelineProperties.
Import Py Lark Parser Generator Spec.

(** C4: [parse_market] takes its grammar from the file market_grammar.lark
    and not from the [grammar] string of the module: its result is the same
    whatever that string is; when the working directory does not hold the
    file, as is the case for the source files of the repository, every input
    gives the file error, whether the input is well formed or not. *)
Theorem parse_market_missing_grammar_file
    (g : globals) (cwd : gset string) (text : string) :
  "market_grammar.lark" ∉ cwd →
  parse_market g cwd text = Raise (FileNotFoundError "market_grammar.lark") ∧
  ∀ g' cwd', parse_market g' cwd' text = parse_market g cwd' text.
Proof. intros H. split; [by apply parse_market_absent|done]. Qed.

Lemma parse_market_missing_grammar_file_witness :
  ("market_grammar.lark" ∉ repository_files) ∧
  parse_market module_globals repository_files example
  = Raise (FileNotFoundError "market_grammar.lark") ∧
  ∀ g' cwd', parse_market g' cwd' example = parse_market module_globals cwd' example.
Proof.
  assert ("market_grammar.lark" ∉ repository_files) as H
    by (vm_compute; discriminate).
  split; [exact H|].
  exact (parse_market_missing_grammar_file module_globals repository_files example H).
Defined.





(** C9: every dictionary a successful parse returns has the outcomes Yes, No
    and the mechanism pool, and the two reductions return these whatever
    their items are. *)
Theorem parse_market_outcomes_mechanism
    (g : globals) (cwd : gset string) (text : string) (ast : gmap string value) :
  parse_market g cwd text = Ok ast →
  ast !! "outcomes" = Some (PyList [PyStr "Yes"; PyStr "No"]) ∧
  ast !! "mechanism" = Some (PyStr "pool") ∧
  ∀ items : list string,
    MarketTransformer.outcomes items
    = Ok {[ "outcomes" := PyList [PyStr "Yes"; PyStr "No"] ]} ∧
    MarketTransformer.trading_mechanism items
    = Ok {[ "mechanism" := PyStr "pool" ]}.
Proof.
  intros H. unfold parse_market in H. case_decide; [|done].
  apply parse_Ok in H as (toks & Ht & Ha).
  destruct (assemble_Ok toks (tokenizes_length _ _ _ Ht)) as (q & a & n & _ & _ & _ & Ha').
  rewrite Ha' in Ha. injection Ha as <-. done.
Qed.

Lemma parse_market_outcomes_mechanism_witness :
  parse_market module_globals grammar_dir example
  = Ok (market_ast example_question example_oracle 1) ∧
  market_ast example_question example_oracle 1 !! "outcomes"
  = Some (PyList [PyStr "Yes"; PyStr "No"]) ∧
  market_ast example_question example_oracle 1 !! "mechanism"
  = Some (PyStr "pool") ∧
  ∀ items : list string,
    MarketTransformer.outcomes items
    = Ok {[ "outcomes" := PyList [PyStr "Yes"; PyStr "No"] ]} ∧
    MarketTransformer.trading_mechanism items
    = Ok {[ "mechanism" := PyStr "pool" ]}.
Proof.
  assert (parse_market module_globals grammar_dir example
          = Ok (market_ast example_question example_oracle 1)) as H
    by (vm_compute; reflexivity).
  split; [exact H|].
  exact (parse_market_outcomes_mechanism module_globals grammar_dir example _ H).
Defined.

Lemma generate_contract_market_ast q a f :
  generate_contract (market_ast q a f) = Ok pool_contract.
Proof.
  apply (generate_contract_fee_mechanism _ (PyInt f) (PyInt f) (PyStr "pool"));
    [|done|]; unfold market_ast; by simplify_map_eq.
Qed.

(** C2 (counterexample): the contract generated for the scenario document
    does not hold the oracle address, and the fee the generator works with
    is 1, not 100. *)
Lemma scenario_contract_lacks_oracle :
  compile module_globals grammar_dir scenario = Ok pool_contract ∧
  contains pool_contract example_oracle = false ∧
  (parse_market module_globals grammar_dir scenario ≫= fee_local) = Ok (PyInt 1).
Proof. split_and!; vm_compute; reflexivity. Qed.

(** C2 (amended): the scenario document is parsed to the dictionary with the
    question, the outcomes Yes and No, the oracle address, the fee 1 and the
    mechanism pool; the conversion of the generator takes the fee text 1% to
    100; the contract generated for the document has a constructor with the
    parameters _oracle and _fee, assigns the mechanism pool in it, and
    does not hold the oracle address. *)
Theorem scenario_compiled :
  parse_market module_globals grammar_dir scenario
  = Ok (market_ast example_question example_oracle 1) ∧
  convert_fee (PyStr "1%") = Ok (PyInt 100) ∧
  compile module_globals grammar_dir scenario = Ok pool_contract ∧
  contains pool_contract "address _oracle," = true ∧
  contains pool_contract "uint256 _fee" = true ∧
  contains pool_contract ("mechanism = " +:+ dq +:+ "pool" +:+ dq +:+ ";") = true ∧
  contains pool_contract example_oracle = false.
Proof. split_and!; vm_compute; reflexivity. Qed.





End PipelineProperties.

(** ** Examples *)

Section Examples.
Import Py Lark Parser Generator Spec.

Example int_examples :
  map int_of_string ["12"; " 1_0 "; "007"; "-5"; "1__0"; "_1"; "1_"; "+"; "0x10"; "1 2"; ""]
  = [Some 12; Some 10; Some 7; Some (-5); None; None; None; None; None; None; None].
Proof. reflexivity. Qed.

Example str_examples :
  map str [PyStr "pool"; PyInt (-3); PyInt 0; PyNone; PyBool true;
           PyList [PyStr "Yes"; PyStr "No"]; PyList [PyStr "it's"; PyInt 1]]
  = ["pool"; "-3"; "0"; "None"; "True"; "['Yes', 'No']";
     "[" +:+ dq +:+ "it's" +:+ dq +:+ ", 1]"].
Proof. vm_compute. reflexivity. Qed.

Example fee_local_examples :
  fee_local {[ "fee" := PyStr "1%" ]} = Ok (PyInt 100) ∧
  fee_local {[ "fee" := PyStr "2%%" ]} = Ok (PyInt 200) ∧
  fee_local {[ "fee" := PyStr "abc%" ]} = Raise ValueError ∧
  fee_local {[ "fee" := PyStr "5" ]} = Ok (PyStr "5") ∧
  fee_local {[ "fee" := PyInt 1 ]} = Ok (PyInt 1) ∧
  fee_local ∅ = Raise (KeyError "fee").
Proof. split_and!; reflexivity. Qed.

Example generate_contract_errors :
  generate_contract {[ "mechanism" := PyStr "pool" ]} = Raise (KeyError "fee") ∧
  generate_contract {[ "fee" := PyInt 100 ]} = Raise (KeyError "mechanism") ∧
  generate_contract {[ "fee" := PyStr "abc%" ]} = Raise ValueError ∧
  generate_contract example_market = Ok pool_contract.
Proof. split_and!; vm_compute; reflexivity. Qed.

(** The document of the module's [__main__] block and the one-line document
    of the scenario are parsed to the same dictionary. *)
Example parse_example :
  Lark.parse example = Ok (market_ast example_question example_oracle 1) ∧
  Lark.parse scenario = Ok (market_ast example_question example_oracle 1).
Proof. split; vm_compute; reflexivity. Qed.

(** Syntax errors: a missing field, an address with a character that is not
    a hexadecimal digit, an address of 41 digits, fields out of order, text
    after the closing brace, and the end of the input in the middle, which
    is reported at the last token read. *)
Example parse_errors :
  Lark.parse ("market " +:+ dq +:+ "q" +:+ dq +:+ " { oracle: " +:+ example_oracle +:+ "; }")
  = Raise (UnexpectedInput 1 14 [T_OUTCOMES]) ∧
  Lark.parse ("market " +:+ dq +:+ "q" +:+ dq +:+ " {" +:+ nl +:+ " outcomes: Yes, No;"
              +:+ nl +:+ " oracle: 0xZZZ;")
  = Raise (UnexpectedInput 3 10 [T_ADDRESS]) ∧
  Lark.parse (document "q" (example_oracle +:+ "0") "1")
  = Raise (UnexpectedInput 1 83 [T_SEMICOLON]) ∧
  Lark.parse ("market " +:+ dq +:+ "q" +:+ dq +:+ " { outcomes: No, Yes;")
  = Raise (UnexpectedInput 1 24 [T_YES]) ∧
  Lark.parse (scenario +:+ " market")
  = Raise (UnexpectedInput 1 149 [T_END]) ∧
  Lark.parse ("market " +:+ dq +:+ "q" +:+ dq +:+ " { outcomes: Yes, No;  ")
  = Raise (UnexpectedInput 1 31 [T_ORACLE]).
Proof. split_and!; vm_compute; reflexivity. Qed.

End Examples.

(** * Further properties of the code *)

(** ** The conversion step of the generator *)

Section ConversionProperties.
Import Py Generator Spec Notions.





















End ConversionProperties.

(** ** The text of the contract and the mechanism *)

Section ContractTextProperties.
Import Py Generator Spec Notions.





End ContractTextProperties.

(** ** The reductions of the transformer *)

Section TransformerProperties.
Import Py Spec Notions.

Lemma fields_lookup (items : list (gmap string value)) (k : string) :
  foldl (λ acc item, item ∪ acc) ∅ items !! k
  = head (omap (λ d : gmap string value, d !! k) (reverse items)).
Proof.
  induction items as [|d items IH] using rev_ind; [done|].
  rewrite foldl_app, reverse_snoc. cbn [foldl omap list_omap].
  rewrite lookup_union, IH.
  destruct (d !! k) as [v|]; simpl; by destruct (head _).
Qed.

(** X4: [fields] never raises, and the dictionary it returns holds, for each
    key, the value of the last item that has the key, and no value when no
    item has it. *)
Theorem fields_last_item_wins (items : list (gmap string value)) (k : string) :
  ∃ m, MarketTransformer.fields items = Ok m ∧
    m !! k = head (omap (λ d : gmap string value, d !! k) (reverse items)).
Proof. eexists. split; [reflexivity|apply fields_lookup]. Qed.

Lemma Permutation_short {A} (l l' : list A) :
  l ≡ₚ l' → (length l ≤ 1)%nat → l = l'.
Proof.
  intros Hp Hl. destruct l as [|x [|y l]]; simpl in Hl; [| |lia].
  - by apply Permutation_nil_l in Hp.
  - by apply Permutation_singleton_l in Hp.
Qed.

(** X5: when no key occurs in two of the items, the result of [fields] does
    not depend on the order of the items. *)
Theorem fields_order_irrelevant (items items' : list (gmap string value)) :
  (∀ k, (length (omap (λ d : gmap string value, d !! k) items) ≤ 1)%nat) →
  items ≡ₚ items' →
  MarketTransformer.fields items = MarketTransformer.fields items'.
Proof.
  intros Hone Hp. unfold MarketTransformer.fields. f_equal.
  apply map_eq. intros k. rewrite !fields_lookup. f_equal.
  apply Permutation_short.
  - by rewrite !reverse_Permutation, Hp.
  - rewrite <- (Hone k). apply Nat.eq_le_incl, Permutation_length.
    by rewrite reverse_Permutation.
Qed.

Lemma fields_order_irrelevant_witness :
  (∀ k, (length (omap (λ d : gmap string value, d !! k)
                   (field_items example_oracle 1)) ≤ 1)%nat) ∧
  field_items example_oracle 1 ≡ₚ reverse (field_items example_oracle 1) ∧
  MarketTransformer.fields (field_items example_oracle 1)
  = MarketTransformer.fields (reverse (field_items example_oracle 1)).
Proof.
  assert (∀ k, (length (omap (λ d : gmap string value, d !! k)
                          (field_items example_oracle 1)) ≤ 1)%nat) as Hone.
  { intros k. unfold field_items. cbn [omap list_omap].
    destruct (decide (k = "outcomes")) as [->|?]; [by simplify_map_eq|].
    destruct (decide (k = "oracle")) as [->|?]; [by simplify_map_eq|].
    destruct (decide (k = "fee")) as [->|?]; [by simplify_map_eq|].
    destruct (decide (k = "mechanism")) as [->|?]; [by simplify_map_eq|].
    rewrite !lookup_singleton_ne by done. simpl. lia. }
  assert (field_items example_oracle 1 ≡ₚ reverse (field_items example_oracle 1))
    as Hp by (symmetry; apply reverse_Permutation).
  split_and!; [exact Hone|exact Hp|].
  exact (fields_order_irrelevant _ _ Hone Hp).
Defined.

(** X6: [market], given a token and the dictionary of the fields, returns a
    dictionary with exactly the five market keys, the question being the
    token stripped of quotes and the other four values copied (any other key
    of the fields is dropped); it fails only with a KeyError for one of the
    four keys that the fields lack, and succeeds when all four are there;
    with no item, or the token alone, it raises IndexError, and with a
    dictionary in the place of the token AttributeError. *)
Theorem market_reduction (q : string) (d : gmap string value) :
  (∀ ast, MarketTransformer.market [MarketTransformer.Token q; MarketTransformer.Dict d] = Ok ast →
     dom ast = market_keys ∧
     ast !! "question" = Some (PyStr (strip q "034"%char)) ∧
     ∀ k, k ∈ field_keys → ast !! k = d !! k) ∧
  (∀ e, MarketTransformer.market [MarketTransformer.Token q; MarketTransformer.Dict d] = Raise e →
     ∃ k, k ∈ field_keys ∧ e = KeyError k ∧ d !! k = None) ∧
  ((∀ k, k ∈ field_keys → is_Some (d !! k)) →
     ∃ ast, MarketTransformer.market [MarketTransformer.Token q; MarketTransformer.Dict d] = Ok ast) ∧
  MarketTransformer.market [] = Raise IndexError ∧
  MarketTransformer.market [MarketTransformer.Token q] = Raise IndexError ∧
  MarketTransformer.market [MarketTransformer.Dict d; MarketTransformer.Token q]
  = Raise AttributeError.
Proof.
  unfold MarketTransformer.market, getitem, field_keys. cbn.
  split_and!; try reflexivity.
  - intros ast.
    destruct (d !! "outcomes") as [o|] eqn:Ho; cbn; [|done].
    destruct (d !! "oracle") as [a|] eqn:Ha; cbn; [|done].
    destruct (d !! "fee") as [f|] eqn:Hf; cbn; [|done].
    destruct (d !! "mechanism") as [m|] eqn:Hm; cbn; [|done].
    intros [= <-]. split_and!.
    + rewrite !dom_insert_L, dom_singleton_L. unfold market_keys. set_solver.
    + by simplify_map_eq.
    + intros k Hk.
      repeat (apply elem_of_cons in Hk as [->|Hk]; [by simplify_map_eq|]).
      by apply elem_of_nil in Hk.
  - intros e.
    destruct (d !! "outcomes") as [o|] eqn:Ho; cbn;
      [|intros [= <-]; exists "outcomes"; split_and!; [set_solver|done..]].
    destruct (d !! "oracle") as [a|] eqn:Ha; cbn;
      [|intros [= <-]; exists "oracle"; split_and!; [set_solver|done..]].
    destruct (d !! "fee") as [f|] eqn:Hf; cbn;
      [|intros [= <-]; exists "fee"; split_and!; [set_solver|done..]].
    destruct (d !! "mechanism") as [m|] eqn:Hm; cbn;
      [done|intros [= <-]; exists "mechanism"; split_and!; [set_solver|done..]].
  - intros Hall.
    destruct (Hall "outcomes") as [o ->]; [set_solver|].
    destruct (Hall "oracle") as [a ->]; [set_solver|].
    destruct (Hall "fee") as [f ->]; [set_solver|].
    destruct (Hall "mechanism") as [m ->]; [set_solver|].
    cbn. by eexists.
Qed.

Lemma lstrip_with_spec p s :
  ∃ l, s = l +:+ lstrip_with p s ∧ all_chars p l = true ∧
    head_not p (lstrip_with p s).
Proof.
  induction s as [|c s (l & Hs & Hl & Hh)]; [by exists EmptyString|].
  simpl. destruct (p c) eqn:Hc.
  - exists (String c l). rewrite app_cons, <- Hs. simpl. by rewrite Hc, Hl.
  - by exists EmptyString.
Qed.

Lemma rstrip_spec s x :
  ∃ r, s = rstrip s x +:+ r ∧ all_chars (is_char x) r = true ∧
    endswith (rstrip s x) x = false.
Proof.
  unfold rstrip. induction s as [|c s (r & Hs & Hr & He)]; [by exists EmptyString|].
  cbn [rstrip_with]. destruct (rstrip_with (is_char x) s) as [|c' rs] eqn:E.
  - rewrite app_nil_l in Hs. subst s. destruct (is_char x c) eqn:Hc.
    + exists (String c r). simpl. by rewrite Hc, Hr.
    + exists r. simpl. by rewrite Hc.
  - exists r. rewrite app_cons, <- Hs. done.
Qed.

Lemma rstrip_with_head p c s :
  p c = false → ∃ s', rstrip_with p (String c s) = String c s'.
Proof.
  intros Hc. cbn [rstrip_with]. destruct (rstrip_with p s); rewrite ?Hc; by eexists.
Qed.

(** X7: the question [market] returns is the token without its leading and
    trailing double quotes, all of them: it neither starts nor ends with a
    double quote, and what is between is kept as it is, quotes included. *)
Theorem market_question_stripped
    (q : string) (d ast : gmap string value) :
  MarketTransformer.market [MarketTransformer.Token q; MarketTransformer.Dict d] = Ok ast →
  ∃ l q' r, ast !! "question" = Some (PyStr q') ∧
    q = l +:+ q' +:+ r ∧
    all_chars (is_char "034"%char) l = true ∧
    all_chars (is_char "034"%char) r = true ∧
    startswith q' dq = false ∧ endswith q' "034"%char = false.
Proof.
  intros H.
  assert (ast !! "question" = Some (PyStr (strip q "034"%char))) as Hq.
  { revert H. unfold MarketTransformer.market, getitem. cbn.
    destruct (d !! "outcomes"); cbn; [|done].
    destruct (d !! "oracle"); cbn; [|done].
    destruct (d !! "fee"); cbn; [|done].
    destruct (d !! "mechanism"); cbn; [|done].
    intros [= <-]. by simplify_map_eq. }
  destruct (lstrip_with_spec (is_char "034"%char) q) as (l & Hl & Hlq & Hh).
  destruct (rstrip_spec (lstrip_with (is_char "034"%char) q) "034"%char)
    as (r & Hr & Hrq & He).
  exists l, (strip q "034"%char), r. unfold strip, rstrip in *.
  split_and!; [done| |done|done| |done].
  - by rewrite <- Hr.
  - destruct (lstrip_with (is_char "034"%char) q) as [|c s]; [done|].
    simpl in Hh. destruct (rstrip_with_head _ c s Hh) as [s' ->].
    simpl. unfold is_char in Hh. apply bool_decide_eq_false in Hh.
    rewrite bool_decide_eq_false_2; [done|congruence].
Qed.

Lemma market_question_stripped_witness :
  ∃ l q' r,
    market_ast "a" example_oracle 1 !! "question" = Some (PyStr q') ∧
    dq +:+ dq +:+ "a" +:+ dq = l +:+ q' +:+ r ∧
    all_chars (is_char "034"%char) l = true ∧
    all_chars (is_char "034"%char) r = true ∧
    startswith q' dq = false ∧ endswith q' "034"%char = false.
Proof.
  apply (market_question_stripped (dq +:+ dq +:+ "a" +:+ dq)
           {[ "outcomes" := PyList [PyStr "Yes"; PyStr "No"];
              "oracle" := PyStr example_oracle;
              "fee" := PyInt 1; "mechanism" := PyStr "pool" ]}
           (market_ast "a" example_oracle 1)).
  vm_compute. reflexivity.
Defined.

End TransformerProperties.

(** ** The results of the parser *)

Section ParseResultProperties.
Import Py Lark Parser Generator Spec TestParser Notions.

Lemma tokenizes_lexeme ts : ∀ toks doc i t x,
  tokenizes ts toks doc → ts !! i = Some t → toks !! i = Some x → lexeme t x.
Proof.
  induction ts as [|t0 ts IH]; intros [|x0 toks] doc i t x; simpl; try done.
  intros (w & r & _ & Hx & _ & Hr). destruct i as [|i]; simpl.
  - by intros [= <-] [= <-].
  - by apply IH with r.
Qed.

Lemma decimal_nonnegative d : 0 ≤ decimal d.
Proof.
  induction d as [|c d IH]; cbn [decimal]; [lia|].
  apply Z.add_nonneg_nonneg; [|done].
  apply Z.mul_nonneg_nonneg; [|apply Z.pow_nonneg; lia].
  unfold digit_value. case_match eqn:E; simpl; [|lia].
  apply andb_true_iff in E as [E%Nat.leb_le _]. lia.
Qed.

Lemma no_quote_contains_char q :
  all_chars (λ c, negb (is_quote c)) q = true → contains_char "034"%char q = false.
Proof.
  induction q as [|c q IH]; [done|]. simpl.
  intros [Hc Hq]%andb_true_iff. apply negb_true_iff in Hc.
  unfold is_quote in Hc. by rewrite Hc, (IH Hq).
Qed.

Lemma parse_market_Ok_inv g cwd text ast :
  parse_market g cwd text = Ok ast →
  ∃ q h n, ast = market_ast q ("0x" +:+ h) (decimal n) ∧
    all_chars (λ c, negb (is_quote c)) q = true ∧
    String.length h = 40%nat ∧ all_chars is_hex h = true ∧ numeral n.
Proof.
  intros H. unfold parse_market in H. case_decide; [|done].
  apply parse_Ok in H as (toks & Ht & Ha).
  destruct (assemble_Ok toks (tokenizes_length _ _ _ Ht))
    as (qt & a & n & Hq & Haddr & Hn & Ha').
  rewrite Ha' in Ha. injection Ha as <-.
  destruct (tokenizes_lexeme _ _ _ 1%nat T_STRING qt Ht eq_refl Hq) as (q & Hnq & ->).
  destruct (tokenizes_lexeme _ _ _ 9%nat T_ADDRESS a Ht eq_refl Haddr)
    as (h & Hl & Hh & ->).
  pose proof (tokenizes_lexeme _ _ _ 12%nat T_NUMBER n Ht eq_refl Hn) as Hnum.
  exists q, h, n. by rewrite strip_quotes.
Qed.




(** X9: in every dictionary [parse_market] returns, the question holds no
    double quote, the oracle is 0x followed by exactly 40 hexadecimal
    digits, the fee is an integer that is not negative, and the keys are
    the five market keys. *)
Theorem parse_market_result_invariants
    (g : globals) (cwd : gset string) (text : string) (ast : gmap string value) :
  parse_market g cwd text = Ok ast →
  ∃ q h f, ast = market_ast q ("0x" +:+ h) f ∧
    contains_char "034"%char q = false ∧
    String.length h = 40%nat ∧ all_chars is_hex h = true ∧
    0 ≤ f ∧ dom ast = market_keys.
Proof.
  intros (q & h & n & -> & Hq & Hl & Hh & Hn)%parse_market_Ok_inv.
  exists q, h, (decimal n). split_and!; [done| |done|done| |].
  - by apply no_quote_contains_char.
  - apply decimal_nonnegative.
  - apply market_ast_dom.
Qed.

Lemma parse_market_result_invariants_witness :
  parse_market module_globals grammar_dir example
  = Ok (market_ast example_question example_oracle 1) ∧
  ∃ q h f, market_ast example_question example_oracle 1 = market_ast q ("0x" +:+ h) f ∧
    contains_char "034"%char q = false ∧
    String.length h = 40%nat ∧ all_chars is_hex h = true ∧
    0 ≤ f ∧ dom (market_ast example_question example_oracle 1) = market_keys.
Proof.
  assert (parse_market module_globals grammar_dir example
          = Ok (market_ast example_question example_oracle 1)) as H
    by (vm_compute; reflexivity).
  split; [exact H|].
  exact (parse_market_result_invariants module_globals grammar_dir example _ H).
Defined.

#[local] Arguments span : simpl never.

Lemma next_token_blank t st :
  whitespace (rest st) → t ≠ T_END →
  next_token t st
  = Raise (UnexpectedInput (default (1%nat, 1%nat) (last_token st)).1
             (default (1%nat, 1%nat) (last_token st)).2 [t]).
Proof.
  intros Hw Ht. unfold next_token.
  rewrite <- (app_nil_r (rest st)). rewrite span_app by done. by destruct t.
Qed.

(** X10: a document that is empty or made of whitespace only is refused at
    line 1, column 1, where the keyword market was expected. *)
Theorem parse_market_blank_document
    (g : globals) (cwd : gset string) (text : string) :
  "market_grammar.lark" ∈ cwd → whitespace text →
  parse_market g cwd text = Raise (UnexpectedInput 1 1 [T_MARKET]).
Proof.
  intros Hfile Hw. rewrite (parse_market_present g cwd _ Hfile).
  unfold Lark.parse. by rewrite (next_token_blank T_MARKET (initial text)).
Qed.

Lemma parse_market_blank_document_witness :
  "market_grammar.lark" ∈ grammar_dir ∧
  whitespace (" " +:+ nl +:+ " ") ∧
  parse_market module_globals grammar_dir (" " +:+ nl +:+ " ")
  = Raise (UnexpectedInput 1 1 [T_MARKET]).
Proof.
  assert ("market_grammar.lark" ∈ grammar_dir) as H by (by apply elem_of_singleton).
  assert (whitespace (" " +:+ nl +:+ " ")) as Hw by reflexivity.
  split_and!; [exact H|exact Hw|].
  exact (parse_market_blank_document module_globals grammar_dir _ H Hw).
Defined.

(** X11: the generator accepts every dictionary the parser returns: it
    raises neither KeyError nor ValueError on it, its conversion step leaves
    the parsed fee, an integer, as it is, and the contract text is the one
    for the mechanism pool, the same for every document. *)
Theorem generate_contract_of_parse
    (g : globals) (cwd : gset string) (text : string) (ast : gmap string value) :
  parse_market g cwd text = Ok ast →
  generate_contract ast = Ok pool_contract ∧
  ∃ f, ast !! "fee" = Some (PyInt f) ∧ fee_local ast = Ok (PyInt f).
Proof.
  intros (q & h & n & -> & _)%parse_market_Ok_inv. split.
  - apply generate_contract_market_ast.
  - exists (decimal n). unfold fee_local, getitem, market_ast. by simplify_map_eq.
Qed.

Lemma generate_contract_of_parse_witness :
  parse_market module_globals grammar_dir fee_15_document
  = Ok (market_ast example_question example_oracle 15) ∧
  generate_contract (market_ast example_question example_oracle 15) = Ok pool_contract ∧
  ∃ f, market_ast example_question example_oracle 15 !! "fee" = Some (PyInt f) ∧
    fee_local (market_ast example_question example_oracle 15) = Ok (PyInt f).
Proof.
  assert (parse_market module_globals grammar_dir fee_15_document
          = Ok (market_ast example_question example_oracle 15)) as H
    by (vm_compute; reflexivity).
  split; [exact H|].
  exact (generate_contract_of_parse module_globals grammar_dir fee_15_document _ H).
Defined.




End ParseResultProperties.
